(** * XLR8SPISRAM: the SPI SRAM control register of the XLR8

    A shallow embedding of [XLR8SPISRAM.h].  The class has six one-line
    methods, each a read-modify-write of the 8-bit register
    [XLR8SPISRAMMEMCR] at data-space address [0xF0]:

      - bits 7:6  reserved
      - bits 5:4  SRAM mode (byte = 00, page = 10, sequential = 01)
      - bits 3:1  SPI speed
      - bit  0    extended address enable

    Bytes are integers in [0, 256); the C conversions back to [uint8_t]
    (after integer promotion to [int]) are written out as [to_uint8]. *)

From Stdlib Require Import ZArith Lia Bool List Permutation.
Import ListNotations.

Local Open Scope Z_scope.

(** ** The AVR side: bytes and the data space *)

Module AVR.

(** The values a [uint8_t] can hold. *)
Definition is_uint8 (v : Z) : Prop := 0 <= v < 256.

(** Conversion of an [int] to [uint8_t]: reduction modulo 2^8. *)
Definition to_uint8 (z : Z) : Z := z mod 2 ^ 8.

(** The data space: what each address holds. *)
Definition data_space : Type := Z -> Z.

(** [_SFR_MEM8(mem_addr)] of avr-libc is the volatile byte at [mem_addr];
    here it is the address itself, used with [load8] and [store8]. *)
Definition _SFR_MEM8 (mem_addr : Z) : Z := mem_addr.

Definition load8 (m : data_space) (a : Z) : Z := m a.

(** A store writes a [uint8_t]: the value is converted on the way in. *)
Definition store8 (m : data_space) (a : Z) (v : Z) : data_space :=
  fun a' => if a' =? a then to_uint8 v else m a'.

(** Every location of the data space holds a byte. *)
Definition bytes_only (m : data_space) : Prop := forall a, is_uint8 (m a).

End AVR.

Import AVR.

(** ** XLR8SPISRAM.h *)

(** The SPI clock division codes, redefined from the SPI library. *)
Definition SPI_CLOCK_DIV4 : Z := 0x00.
Definition SPI_CLOCK_DIV16 : Z := 0x01.
Definition SPI_CLOCK_DIV64 : Z := 0x02.
Definition SPI_CLOCK_DIV128 : Z := 0x03.
Definition SPI_CLOCK_DIV2 : Z := 0x04.
Definition SPI_CLOCK_DIV8 : Z := 0x05.
Definition SPI_CLOCK_DIV32 : Z := 0x06.

Definition XLR8SPISRAMMEMCR : Z := _SFR_MEM8 0xF0.

Module XLR8SPISRAM_Class.

(** [XLR8SPISRAMMEMCR &= 0x0F;] *)
Definition byte_mode (m : data_space) : data_space :=
  store8 m XLR8SPISRAMMEMCR (Z.land (load8 m XLR8SPISRAMMEMCR) 0x0F).

(** [XLR8SPISRAMMEMCR = (XLR8SPISRAMMEMCR & 0x0F) | 0x20;] *)
Definition page_mode (m : data_space) : data_space :=
  store8 m XLR8SPISRAMMEMCR
    (Z.lor (Z.land (load8 m XLR8SPISRAMMEMCR) 0x0F) 0x20).

(** [XLR8SPISRAMMEMCR = (XLR8SPISRAMMEMCR & 0x0F) | 0x10;] *)
Definition sequential_mode (m : data_space) : data_space :=
  store8 m XLR8SPISRAMMEMCR
    (Z.lor (Z.land (load8 m XLR8SPISRAMMEMCR) 0x0F) 0x10).

(** [XLR8SPISRAMMEMCR =
       (XLR8SPISRAMMEMCR & 0x31) | ((uint8_t)(divider << 1));]
    [divider] is promoted to [int] before the shift, so nothing is lost
    until the cast. *)
Definition clock_divider (divider : Z) (m : data_space) : data_space :=
  store8 m XLR8SPISRAMMEMCR
    (Z.lor (Z.land (load8 m XLR8SPISRAMMEMCR) 0x31)
           (to_uint8 (Z.shiftl divider 1))).

(** [XLR8SPISRAMMEMCR |= 0x01;] *)
Definition extended_address_enable (m : data_space) : data_space :=
  store8 m XLR8SPISRAMMEMCR (Z.lor (load8 m XLR8SPISRAMMEMCR) 0x01).

(** [XLR8SPISRAMMEMCR &= 0x3E;] *)
Definition extended_address_disable (m : data_space) : data_space :=
  store8 m XLR8SPISRAMMEMCR (Z.land (load8 m XLR8SPISRAMMEMCR) 0x3E).

End XLR8SPISRAM_Class.

Import XLR8SPISRAM_Class.

(** ** Reading the register and its fields *)

(** The current value of the control register. *)
Definition MEMCR (m : data_space) : Z := load8 m XLR8SPISRAMMEMCR.

(** Bit [i] of a byte. *)
Definition bit (i : Z) (r : Z) : bool := Z.testbit r i.

(** The field [hi:lo] of a byte, as a number. *)
Definition bits (hi lo : Z) (r : Z) : Z :=
  Z.land (Z.shiftr r lo) (Z.ones (hi - lo + 1)).

(** Two bytes agree on every bit from [lo] to [hi]. *)
Definition same_bits (hi lo : Z) (r v : Z) : Prop :=
  forall i, lo <= i <= hi -> bit i r = bit i v.

(** Two data spaces hold the same byte at every address. *)
Definition same_state (m1 m2 : data_space) : Prop :=
  forall a, load8 m1 a = load8 m2 a.

(** The shape all six methods share: read the register, compute, write it
    back. *)
Definition rmw (g : Z -> Z) (m : data_space) : data_space :=
  store8 m XLR8SPISRAMMEMCR (g (load8 m XLR8SPISRAMMEMCR)).

(** The data space with the control register set to [v], all else zero. *)
Definition with_MEMCR (v : Z) : data_space :=
  store8 (fun _ => 0) XLR8SPISRAMMEMCR v.

(** ** Calls and sequences of calls *)

(** The seven codes the header names. *)
Definition spi_clock_codes : list Z :=
  [SPI_CLOCK_DIV4; SPI_CLOCK_DIV16; SPI_CLOCK_DIV64; SPI_CLOCK_DIV128;
   SPI_CLOCK_DIV2; SPI_CLOCK_DIV8; SPI_CLOCK_DIV32].

(** One call of a method of the class, with its argument. *)
Inductive call : Type :=
| Byte_mode
| Page_mode
| Sequential_mode
| Clock_divider (divider : Z)
| Extended_address_enable
| Extended_address_disable.

Definition do_call (k : call) (m : data_space) : data_space :=
  match k with
  | Byte_mode => byte_mode m
  | Page_mode => page_mode m
  | Sequential_mode => sequential_mode m
  | Clock_divider divider => clock_divider divider m
  | Extended_address_enable => extended_address_enable m
  | Extended_address_disable => extended_address_disable m
  end.

(** The calls of a list, made one after the other, first to last. *)
Fixpoint run (ks : list call) (m : data_space) : data_space :=
  match ks with
  | [] => m
  | k :: ks' => run ks' (do_call k m)
  end.

(** What a call computes from the byte it read, before the store. *)
Definition update (k : call) (r : Z) : Z :=
  match k with
  | Byte_mode => Z.land r 0x0F
  | Page_mode => Z.lor (Z.land r 0x0F) 0x20
  | Sequential_mode => Z.lor (Z.land r 0x0F) 0x10
  | Clock_divider divider =>
      Z.lor (Z.land r 0x31) (to_uint8 (Z.shiftl divider 1))
  | Extended_address_enable => Z.lor r 0x01
  | Extended_address_disable => Z.land r 0x3E
  end.

Definition is_mode_call (k : call) : bool :=
  match k with
  | Byte_mode | Page_mode | Sequential_mode => true
  | _ => false
  end.

Definition is_extended_address_call (k : call) : bool :=
  match k with
  | Extended_address_enable | Extended_address_disable => true
  | _ => false
  end.

(** A call whose divider code, if it has one, fits the 3-bit field. *)
Definition code_in_range (k : call) : bool :=
  match k with
  | Clock_divider divider => (0 <=? divider) && (divider <=? 7)
  | _ => true
  end.

(** The mode bits 5:4 a mode setter writes, in place: byte = 00,
    page = 10, seq = 01. *)
Definition mode_field (k : call) : Z :=
  match k with
  | Page_mode => 0x20
  | Sequential_mode => 0x10
  | _ => 0x00
  end.

(** Bit 0 as an extended-address call leaves it. *)
Definition extended_address_field (k : call) : Z :=
  match k with
  | Extended_address_enable => 0x01
  | _ => 0x00
  end.

(** Bits 7:6 of the register are both zero. *)
Definition reserved_clear (v : Z) : bool := negb (bit 7 v) && negb (bit 6 v).

(** Bits 5:4 of the register are not the reserved encoding 11. *)
Definition legal_mode (v : Z) : bool := negb (bit 5 v && bit 4 v).

(** ** Bytes, bit by bit *)

Lemma to_uint8_range z : is_uint8 (to_uint8 z).
Proof. unfold is_uint8, to_uint8. apply Z.mod_pos_bound. reflexivity. Qed.

Lemma testbit_to_uint8 z i :
  Z.testbit (to_uint8 z) i = (i <? 8) && Z.testbit z i.
Proof. unfold to_uint8. apply Z.testbit_mod_pow2. lia. Qed.

(** A number below [2^n] has no bit at position [n] or above. *)
Lemma testbit_above n x i :
  0 <= x < 2 ^ n -> n <= i -> Z.testbit x i = false.
Proof.
  intros [Hx0 Hxn] Hi.
  destruct (Z.eq_dec x 0) as [-> | Hnz].
  - apply Z.testbit_0_l.
  - apply Z.bits_above_log2; [exact Hx0 |].
    apply Z.lt_le_trans with n; [| exact Hi].
    apply Z.log2_lt_pow2; lia.
Qed.

Lemma testbit_uint8_high v i : is_uint8 v -> 8 <= i -> Z.testbit v i = false.
Proof. intros Hv Hi. apply (testbit_above 8); assumption. Qed.

(** An index is one of the eight positions of a byte, or beyond them. *)
Lemma byte_index i :
  0 <= i ->
  i = 0 \/ i = 1 \/ i = 2 \/ i = 3 \/ i = 4 \/ i = 5 \/ i = 6 \/ i = 7 \/ 8 <= i.
Proof. lia. Qed.

Create Rewrite HintDb byte_bits.
#[local] Hint Rewrite
  testbit_to_uint8 Z.lor_spec Z.land_spec : byte_bits.
#[local] Hint Rewrite
  Z.shiftl_spec Z.shiftr_spec using lia : byte_bits.

(** Closed index arithmetic is evaluated. *)
Ltac eval_index :=
  repeat match goal with
  | |- context [Z.testbit _ (?a + ?b)] =>
      let r := eval vm_compute in (a + b) in progress change (a + b) with r
  | |- context [Z.testbit _ (?a - ?b)] =>
      let r := eval vm_compute in (a - b) in progress change (a - b) with r
  end.

(** A literal that is a byte. *)
Ltac closed_byte :=
  unfold is_uint8; vm_compute; split; [discriminate | reflexivity].

(** Bits known to be zero: at a negative index, above bit 7 of a byte,
    above bit 2 of a 3-bit code. *)
Ltac zero_bits :=
  repeat match goal with
  | |- context [Z.testbit ?x ?j] =>
      first [ rewrite (Z.testbit_neg_r x j) by lia
            | rewrite (testbit_uint8_high x j)
                by first [assumption | lia | closed_byte]
            | rewrite (testbit_above 3 x j) by lia
            | rewrite (testbit_above 7 x j) by lia ]
  end.

(** The bits of the variables become booleans; the rest computes. *)
Ltac abstract_bits :=
  repeat match goal with
  | |- context [Z.testbit ?x ?j] => is_var x; generalize (Z.testbit x j); intro
  end.

Ltac decide_bits :=
  eval_index; zero_bits; abstract_bits; vm_compute;
  repeat match goal with b : bool |- _ => destruct b end;
  reflexivity.

(** Beyond bit 7 everything in sight is zero. *)
Ltac high_bits i :=
  repeat match goal with
  | |- context [i <? 8] =>
      replace (i <? 8) with false by (symmetry; apply Z.ltb_ge; lia)
  end;
  zero_bits;
  rewrite ?andb_false_l, ?andb_false_r, ?orb_false_l, ?orb_false_r;
  reflexivity.

(** Equality of two integers built from bytes, decided bit by bit. *)
Ltac byte_eq :=
  apply Z.bits_inj'; intros ?i ?Hi;
  autorewrite with byte_bits;
  match goal with
  | Hi : 0 <= ?i |- _ =>
      destruct (byte_index i Hi)
        as [-> | [-> | [-> | [-> | [-> | [-> | [-> | [-> | ?Hhigh]]]]]]]];
      [decide_bits .. | high_bits i]
  end.

(** Agreement of two bytes on a range of bit positions. *)
Ltac same_bits_eq :=
  intros ?i ?Hrange; unfold bit; autorewrite with byte_bits;
  match goal with
  | Hr : _ <= ?i <= _ |- _ =>
      let Hi := fresh "Hi" in
      assert (Hi : 0 <= i) by lia;
      destruct (byte_index i Hi)
        as [-> | [-> | [-> | [-> | [-> | [-> | [-> | [-> | ?Hhigh]]]]]]]];
      first [exfalso; lia | decide_bits]
  end.

(** ** What each method stores *)

Lemma MEMCR_store8 m v : MEMCR (store8 m XLR8SPISRAMMEMCR v) = to_uint8 v.
Proof. unfold MEMCR, load8, store8. rewrite Z.eqb_refl. reflexivity. Qed.

Lemma store8_elsewhere m a v a' :
  a' <> a -> load8 (store8 m a v) a' = load8 m a'.
Proof.
  intros Hne. unfold load8, store8.
  destruct (Z.eqb_spec a' a) as [-> | _]; [contradiction | reflexivity].
Qed.

Lemma store8_bytes_only m a v : bytes_only m -> bytes_only (store8 m a v).
Proof.
  intros Hm a'. unfold store8.
  destruct (a' =? a); [apply to_uint8_range | apply Hm].
Qed.

Lemma MEMCR_byte_mode m v :
  MEMCR m = v -> MEMCR (byte_mode m) = Z.land v 0x0F.
Proof.
  intros <-. unfold byte_mode. rewrite MEMCR_store8. fold (MEMCR m).
  generalize (MEMCR m) as v; intro v. byte_eq.
Qed.

Lemma MEMCR_page_mode m v :
  MEMCR m = v -> MEMCR (page_mode m) = Z.lor (Z.land v 0x0F) 0x20.
Proof.
  intros <-. unfold page_mode. rewrite MEMCR_store8. fold (MEMCR m).
  generalize (MEMCR m) as v; intro v. byte_eq.
Qed.

Lemma MEMCR_sequential_mode m v :
  MEMCR m = v -> MEMCR (sequential_mode m) = Z.lor (Z.land v 0x0F) 0x10.
Proof.
  intros <-. unfold sequential_mode. rewrite MEMCR_store8. fold (MEMCR m).
  generalize (MEMCR m) as v; intro v. byte_eq.
Qed.

(** The cast is the only truncation [clock_divider] performs. *)
Lemma MEMCR_clock_divider m v c :
  MEMCR m = v ->
  MEMCR (clock_divider c m) = Z.lor (Z.land v 0x31) (to_uint8 (Z.shiftl c 1)).
Proof.
  intros <-. unfold clock_divider. rewrite MEMCR_store8. fold (MEMCR m).
  generalize (MEMCR m) as v; intro v. byte_eq.
Qed.

Lemma MEMCR_extended_address_enable m v :
  is_uint8 v -> MEMCR m = v ->
  MEMCR (extended_address_enable m) = Z.lor v 0x01.
Proof.
  intros Hv <-. unfold extended_address_enable. rewrite MEMCR_store8.
  fold (MEMCR m). revert Hv. generalize (MEMCR m) as v; intros v Hv. byte_eq.
Qed.

Lemma MEMCR_extended_address_disable m v :
  MEMCR m = v -> MEMCR (extended_address_disable m) = Z.land v 0x3E.
Proof.
  intros <-. unfold extended_address_disable. rewrite MEMCR_store8.
  fold (MEMCR m). generalize (MEMCR m) as v; intro v. byte_eq.
Qed.

(** ** The mode setters *)

(** C1. For every prior 8-bit register value [v], each mode setter leaves
    a byte whose bits 7:4 are the mode code alone (bits 7:6 zero) and whose
    bits 3:0 are those of [v & 0x0F]: [byte_mode] stores [v & 0x0F]
    (bits 5:4 = 00), [page_mode] stores [(v & 0x0F) | 0x20] (bits 5:4 = 10)
    and [sequential_mode] stores [(v & 0x0F) | 0x10] (bits 5:4 = 01). *)
Theorem mode_setters_store_mode_and_low_nibble m v :
  is_uint8 v -> MEMCR m = v ->
  (MEMCR (byte_mode m) = Z.land v 0x0F /\
   bits 7 4 (MEMCR (byte_mode m)) = 0 /\
   bits 7 6 (MEMCR (byte_mode m)) = 0 /\
   bits 5 4 (MEMCR (byte_mode m)) = 0 /\
   bits 3 0 (MEMCR (byte_mode m)) = Z.land v 0x0F) /\
  (MEMCR (page_mode m) = Z.lor (Z.land v 0x0F) 0x20 /\
   bits 7 4 (MEMCR (page_mode m)) = 2 /\
   bits 7 6 (MEMCR (page_mode m)) = 0 /\
   bits 5 4 (MEMCR (page_mode m)) = 2 /\
   bits 3 0 (MEMCR (page_mode m)) = Z.land v 0x0F) /\
  (MEMCR (sequential_mode m) = Z.lor (Z.land v 0x0F) 0x10 /\
   bits 7 4 (MEMCR (sequential_mode m)) = 1 /\
   bits 7 6 (MEMCR (sequential_mode m)) = 0 /\
   bits 5 4 (MEMCR (sequential_mode m)) = 1 /\
   bits 3 0 (MEMCR (sequential_mode m)) = Z.land v 0x0F).
Proof.
  intros Hv Hm.
  rewrite (MEMCR_byte_mode m v Hm), (MEMCR_page_mode m v Hm),
    (MEMCR_sequential_mode m v Hm).
  unfold bits.
  repeat split; byte_eq.
Qed.

Lemma mode_setters_store_mode_and_low_nibble_witness :
  is_uint8 0xFF /\ MEMCR (with_MEMCR 0xFF) = 0xFF /\
  MEMCR (byte_mode (with_MEMCR 0xFF)) = 0x0F /\
  MEMCR (page_mode (with_MEMCR 0xFF)) = 0x2F /\
  MEMCR (sequential_mode (with_MEMCR 0xFF)) = 0x1F.
Proof.
  assert (Hv : is_uint8 0xFF) by (unfold is_uint8; lia).
  assert (Hm : MEMCR (with_MEMCR 0xFF) = 0xFF) by reflexivity.
  destruct (mode_setters_store_mode_and_low_nibble (with_MEMCR 0xFF) 0xFF Hv Hm)
    as [[Hb _] [[Hp _] [Hs _]]].
  exact (conj Hv (conj Hm (conj Hb (conj Hp Hs)))).
Defined.

(** ** The clock divider *)

(** C2. For every prior 8-bit register value [v] and every code [c] in
    0..7, [clock_divider c] stores [(v & 0x31) | (c << 1)]: bits 3:1 of the
    register are [c], bits 5:4 and bit 0 are those of [v], bits 7:6 are
    zero. *)
Theorem clock_divider_field_placement m v c :
  is_uint8 v -> MEMCR m = v -> 0 <= c <= 7 ->
  MEMCR (clock_divider c m) = Z.lor (Z.land v 0x31) (Z.shiftl c 1) /\
  bits 3 1 (MEMCR (clock_divider c m)) = c /\
  bits 5 4 (MEMCR (clock_divider c m)) = bits 5 4 v /\
  bit 0 (MEMCR (clock_divider c m)) = bit 0 v /\
  bits 7 6 (MEMCR (clock_divider c m)) = 0.
Proof.
  intros Hv Hm Hc.
  rewrite (MEMCR_clock_divider m v c Hm).
  unfold bits, bit.
  repeat split; try byte_eq.
  autorewrite with byte_bits. decide_bits.
Qed.

Lemma clock_divider_field_placement_witness :
  is_uint8 0xE0 /\ MEMCR (with_MEMCR 0xE0) = 0xE0 /\ 0 <= 2 <= 7 /\
  MEMCR (clock_divider 2 (with_MEMCR 0xE0)) = 0x24.
Proof.
  assert (Hv : is_uint8 0xE0) by (unfold is_uint8; lia).
  assert (Hm : MEMCR (with_MEMCR 0xE0) = 0xE0) by reflexivity.
  assert (Hc : 0 <= 2 <= 7) by lia.
  destruct (clock_divider_field_placement (with_MEMCR 0xE0) 0xE0 2 Hv Hm Hc)
    as [Hr _].
  exact (conj Hv (conj Hm (conj Hc Hr))).
Defined.

Lemma MEMCR_clock_divider_range m c : is_uint8 (MEMCR (clock_divider c m)).
Proof. unfold clock_divider. rewrite MEMCR_store8. apply to_uint8_range. Qed.

(** C3 fails as stated.  Code 8 on a cleared register: the mode field
    becomes 01, where masking the code to three bits would have left the
    register at zero. *)
Lemma clock_divider_code_8_reaches_mode_field :
  is_uint8 0 /\ is_uint8 8 /\ MEMCR (with_MEMCR 0) = 0 /\
  MEMCR (clock_divider 8 (with_MEMCR 0)) = 0x10 /\
  MEMCR (clock_divider 8 (with_MEMCR 0)) <>
    Z.lor (Z.land 0 0x31) (Z.shiftl (Z.land 8 0x07) 1).
Proof.
  repeat split; try (vm_compute; congruence).
Qed.

(** C3, amended. For every prior 8-bit register value [v] and every 8-bit
    code [c], [clock_divider c] writes the low three bits of [c] into bits
    3:1, but the higher bits of [c] are not all discarded: bits 6:3 of [c]
    are OR-ed into bits 7:4 and only bit 7 is lost.  The stored byte is
    [(v & 0x31) | ((c & 0x07) << 1) | ((c & 0x78) << 1)]; it is
    [(v & 0x31) | ((c & 0x07) << 1)] when [c & 0x78 = 0], in particular
    for every [c <= 7]. *)
Theorem clock_divider_low_three_bits_of_code m v c :
  is_uint8 v -> is_uint8 c -> MEMCR m = v ->
  bits 3 1 (MEMCR (clock_divider c m)) = Z.land c 0x07 /\
  MEMCR (clock_divider c m) =
    Z.lor (Z.lor (Z.land v 0x31) (Z.shiftl (Z.land c 0x07) 1))
          (Z.shiftl (Z.land c 0x78) 1) /\
  (Z.land c 0x78 = 0 ->
   MEMCR (clock_divider c m) =
     Z.lor (Z.land v 0x31) (Z.shiftl (Z.land c 0x07) 1)) /\
  (c <= 7 -> Z.land c 0x78 = 0).
Proof.
  intros Hv Hc Hm.
  assert (Hr : MEMCR (clock_divider c m) =
               Z.lor (Z.lor (Z.land v 0x31) (Z.shiftl (Z.land c 0x07) 1))
                     (Z.shiftl (Z.land c 0x78) 1)).
  { rewrite (MEMCR_clock_divider m v c Hm). byte_eq. }
  repeat split.
  - rewrite (MEMCR_clock_divider m v c Hm). unfold bits. byte_eq.
  - exact Hr.
  - intros Hlow. rewrite Hr, Hlow. change (Z.shiftl 0 1) with 0.
    apply Z.lor_0_r.
  - intros Hle. assert (Hc3 : 0 <= c <= 7) by (unfold is_uint8 in Hc; lia).
    clear Hc. byte_eq.
Qed.

Lemma clock_divider_low_three_bits_of_code_witness :
  is_uint8 0x20 /\ is_uint8 5 /\ MEMCR (with_MEMCR 0x20) = 0x20 /\
  bits 3 1 (MEMCR (clock_divider 5 (with_MEMCR 0x20))) = 5 /\
  MEMCR (clock_divider 5 (with_MEMCR 0x20)) = 0x2A.
Proof.
  assert (Hv : is_uint8 0x20) by (unfold is_uint8; lia).
  assert (Hc : is_uint8 5) by (unfold is_uint8; lia).
  assert (Hm : MEMCR (with_MEMCR 0x20) = 0x20) by reflexivity.
  destruct (clock_divider_low_three_bits_of_code (with_MEMCR 0x20) 0x20 5
              Hv Hc Hm) as [Hf [_ [Hr Hz]]].
  assert (Hle : 5 <= 7) by lia.
  exact (conj Hv (conj Hc (conj Hm (conj Hf (Hr (Hz Hle)))))).
Defined.

(** C4. [clock_divider] does not mask its argument: for every prior 8-bit
    register value [v] and every 8-bit code [c] the stored byte is
    [(v & 0x31) | ((c << 1) mod 256)].  A bit of [c] at position 3..6 lands
    one position up, in bits 7:4; bit 7 of [c] is shifted out of the byte
    and has no effect.  In particular code 8 sets bit 4 of the register
    whatever [v] held there. *)
Theorem clock_divider_spills_unmasked_code m v c :
  is_uint8 v -> is_uint8 c -> MEMCR m = v ->
  MEMCR (clock_divider c m) = Z.lor (Z.land v 0x31) (Z.shiftl c 1 mod 256) /\
  (forall i, 3 <= i <= 6 -> bit i c = true ->
             bit (i + 1) (MEMCR (clock_divider c m)) = true) /\
  is_uint8 (MEMCR (clock_divider c m)) /\
  MEMCR (clock_divider (Z.land c 0x7F) m) = MEMCR (clock_divider c m) /\
  bit 3 8 = true /\
  bit 4 (MEMCR (clock_divider 8 m)) = true.
Proof.
  intros Hv Hc Hm.
  refine (conj _ (conj _ (conj _ (conj _ (conj _ _))))).
  - exact (MEMCR_clock_divider m v c Hm).
  - intros i Hi Hset. rewrite (MEMCR_clock_divider m v c Hm).
    unfold bit in *. autorewrite with byte_bits.
    assert (Hcases : i = 3 \/ i = 4 \/ i = 5 \/ i = 6) by lia.
    destruct Hcases as [-> | [-> | [-> | ->]]];
      eval_index; rewrite Hset; decide_bits.
  - apply MEMCR_clock_divider_range.
  - rewrite (MEMCR_clock_divider m v c Hm),
      (MEMCR_clock_divider m v (Z.land c 0x7F) Hm).
    byte_eq.
  - reflexivity.
  - rewrite (MEMCR_clock_divider m v 8 Hm). unfold bit.
    autorewrite with byte_bits. decide_bits.
Qed.

Lemma clock_divider_spills_unmasked_code_witness :
  is_uint8 0 /\ is_uint8 0x88 /\ MEMCR (with_MEMCR 0) = 0 /\
  bit 4 0 = false /\
  MEMCR (clock_divider 0x88 (with_MEMCR 0)) = 0x10 /\
  bit 4 (MEMCR (clock_divider 8 (with_MEMCR 0))) = true.
Proof.
  assert (Hv : is_uint8 0) by (unfold is_uint8; lia).
  assert (Hc : is_uint8 0x88) by (unfold is_uint8; lia).
  assert (Hm : MEMCR (with_MEMCR 0) = 0) by reflexivity.
  destruct (clock_divider_spills_unmasked_code (with_MEMCR 0) 0 0x88
              Hv Hc Hm) as [Hr [_ [_ [_ [_ H4]]]]].
  exact (conj Hv (conj Hc (conj Hm (conj eq_refl (conj Hr H4))))).
Defined.

(** ** The extended-address bit *)

(** C5. For every prior 8-bit register value [v],
    [extended_address_disable] stores exactly [v & 0x3E]: bit 0 is 0,
    bits 5:1 are those of [v], bits 7:6 are zero. *)
Theorem extended_address_disable_stores_masked m v :
  is_uint8 v -> MEMCR m = v ->
  MEMCR (extended_address_disable m) = Z.land v 0x3E /\
  bit 0 (MEMCR (extended_address_disable m)) = false /\
  same_bits 5 1 (MEMCR (extended_address_disable m)) v /\
  bits 7 6 (MEMCR (extended_address_disable m)) = 0.
Proof.
  intros Hv Hm.
  rewrite (MEMCR_extended_address_disable m v Hm).
  refine (conj _ (conj _ (conj _ _))).
  - reflexivity.
  - unfold bit. autorewrite with byte_bits. decide_bits.
  - same_bits_eq.
  - unfold bits. byte_eq.
Qed.

Lemma extended_address_disable_stores_masked_witness :
  is_uint8 0xFF /\ MEMCR (with_MEMCR 0xFF) = 0xFF /\
  MEMCR (extended_address_disable (with_MEMCR 0xFF)) = 0x3E.
Proof.
  assert (Hv : is_uint8 0xFF) by (unfold is_uint8; lia).
  assert (Hm : MEMCR (with_MEMCR 0xFF) = 0xFF) by reflexivity.
  destruct (extended_address_disable_stores_masked (with_MEMCR 0xFF) 0xFF
              Hv Hm) as [Hr _].
  exact (conj Hv (conj Hm Hr)).
Defined.

(** C6. For every prior 8-bit register value [v], after
    [extended_address_enable] bit 0 of the register is 1 and bits 7:1,
    the reserved bits 7:6 included, are those of [v]: the stored byte is
    [v | 0x01]. *)
Theorem extended_address_enable_sets_bit_0_only m v :
  is_uint8 v -> MEMCR m = v ->
  MEMCR (extended_address_enable m) = Z.lor v 0x01 /\
  bit 0 (MEMCR (extended_address_enable m)) = true /\
  same_bits 7 1 (MEMCR (extended_address_enable m)) v /\
  bits 7 6 (MEMCR (extended_address_enable m)) = bits 7 6 v.
Proof.
  intros Hv Hm.
  rewrite (MEMCR_extended_address_enable m v Hv Hm).
  refine (conj _ (conj _ (conj _ _))).
  - reflexivity.
  - unfold bit. autorewrite with byte_bits. decide_bits.
  - same_bits_eq.
  - unfold bits. byte_eq.
Qed.

Lemma extended_address_enable_sets_bit_0_only_witness :
  is_uint8 0xC6 /\ MEMCR (with_MEMCR 0xC6) = 0xC6 /\
  MEMCR (extended_address_enable (with_MEMCR 0xC6)) = 0xC7.
Proof.
  assert (Hv : is_uint8 0xC6) by (unfold is_uint8; lia).
  assert (Hm : MEMCR (with_MEMCR 0xC6) = 0xC6) by reflexivity.
  destruct (extended_address_enable_sets_bit_0_only (with_MEMCR 0xC6) 0xC6
              Hv Hm) as [Hr _].
  exact (conj Hv (conj Hm Hr)).
Defined.

(** ** Sequences of calls *)

(** Each method is a read-modify-write of the register: it leaves every
    other address alone and keeps the data space a space of bytes. *)
Lemma rmw_elsewhere f m a :
  a <> XLR8SPISRAMMEMCR -> load8 (rmw f m) a = load8 m a.
Proof. intros Hne. apply store8_elsewhere. exact Hne. Qed.

Lemma rmw_bytes_only f m : bytes_only m -> bytes_only (rmw f m).
Proof. apply store8_bytes_only. Qed.

Lemma methods_are_rmw c m :
  byte_mode m = rmw (fun r => Z.land r 0x0F) m /\
  page_mode m = rmw (fun r => Z.lor (Z.land r 0x0F) 0x20) m /\
  sequential_mode m = rmw (fun r => Z.lor (Z.land r 0x0F) 0x10) m /\
  clock_divider c m =
    rmw (fun r => Z.lor (Z.land r 0x31) (to_uint8 (Z.shiftl c 1))) m /\
  extended_address_enable m = rmw (fun r => Z.lor r 0x01) m /\
  extended_address_disable m = rmw (fun r => Z.land r 0x3E) m.
Proof. repeat split. Qed.

Lemma load8_rmw f m a :
  load8 (rmw f m) a =
  if a =? XLR8SPISRAMMEMCR then to_uint8 (f (MEMCR m)) else load8 m a.
Proof. reflexivity. Qed.

Lemma load8_rmw_rmw f g m a :
  load8 (rmw g (rmw f m)) a =
  if a =? XLR8SPISRAMMEMCR
  then to_uint8 (g (to_uint8 (f (MEMCR m)))) else load8 m a.
Proof.
  rewrite load8_rmw.
  destruct (Z.eqb_spec a XLR8SPISRAMMEMCR) as [-> | Hne].
  - unfold MEMCR at 1. rewrite load8_rmw, Z.eqb_refl. reflexivity.
  - rewrite load8_rmw. destruct (Z.eqb_spec a XLR8SPISRAMMEMCR); congruence.
Qed.

(** Two calls in a row against one: it is enough to compare the bytes
    they store. *)
Lemma rmw_twice_same_state f g h m :
  (forall v, to_uint8 (g (to_uint8 (f v))) = to_uint8 (h v)) ->
  same_state (rmw g (rmw f m)) (rmw h m).
Proof.
  intros Hbyte a. rewrite load8_rmw_rmw, load8_rmw, Hbyte. reflexivity.
Qed.

(** Two calls in either order. *)
Lemma rmw_swap_same_state f g m :
  (forall v, to_uint8 (g (to_uint8 (f v))) = to_uint8 (f (to_uint8 (g v)))) ->
  same_state (rmw g (rmw f m)) (rmw f (rmw g m)).
Proof.
  intros Hbyte a. rewrite !load8_rmw_rmw, Hbyte. reflexivity.
Qed.

(** C7. Every mutator is idempotent: for every prior 8-bit register value
    (and every 8-bit code [c] for [clock_divider]), calling it twice in a
    row with the same argument leaves the data space, the register
    included, as one call does. *)
Theorem mutators_idempotent m c :
  is_uint8 (MEMCR m) -> is_uint8 c ->
  same_state (byte_mode (byte_mode m)) (byte_mode m) /\
  same_state (page_mode (page_mode m)) (page_mode m) /\
  same_state (sequential_mode (sequential_mode m)) (sequential_mode m) /\
  same_state (clock_divider c (clock_divider c m)) (clock_divider c m) /\
  same_state (extended_address_enable (extended_address_enable m))
             (extended_address_enable m) /\
  same_state (extended_address_disable (extended_address_disable m))
             (extended_address_disable m).
Proof.
  intros Hv Hc.
  refine (conj _ (conj _ (conj _ (conj _ (conj _ _))))).
  - apply (rmw_twice_same_state
             (fun r => Z.land r 0x0F) (fun r => Z.land r 0x0F)
             (fun r => Z.land r 0x0F)).
    intros v. byte_eq.
  - apply (rmw_twice_same_state
             (fun r => Z.lor (Z.land r 0x0F) 0x20)
             (fun r => Z.lor (Z.land r 0x0F) 0x20)
             (fun r => Z.lor (Z.land r 0x0F) 0x20)).
    intros v. byte_eq.
  - apply (rmw_twice_same_state
             (fun r => Z.lor (Z.land r 0x0F) 0x10)
             (fun r => Z.lor (Z.land r 0x0F) 0x10)
             (fun r => Z.lor (Z.land r 0x0F) 0x10)).
    intros v. byte_eq.
  - apply (rmw_twice_same_state
             (fun r => Z.lor (Z.land r 0x31) (to_uint8 (Z.shiftl c 1)))
             (fun r => Z.lor (Z.land r 0x31) (to_uint8 (Z.shiftl c 1)))
             (fun r => Z.lor (Z.land r 0x31) (to_uint8 (Z.shiftl c 1)))).
    intros v. byte_eq.
  - apply (rmw_twice_same_state
             (fun r => Z.lor r 0x01) (fun r => Z.lor r 0x01)
             (fun r => Z.lor r 0x01)).
    intros v. byte_eq.
  - apply (rmw_twice_same_state
             (fun r => Z.land r 0x3E) (fun r => Z.land r 0x3E)
             (fun r => Z.land r 0x3E)).
    intros v. byte_eq.
Qed.

Lemma mutators_idempotent_witness :
  is_uint8 (MEMCR (with_MEMCR 0xFF)) /\ is_uint8 0x0B /\
  MEMCR (clock_divider 0x0B (with_MEMCR 0xFF)) = 0x37 /\
  MEMCR (clock_divider 0x0B (clock_divider 0x0B (with_MEMCR 0xFF))) =
  MEMCR (clock_divider 0x0B (with_MEMCR 0xFF)).
Proof.
  assert (Hv : is_uint8 (MEMCR (with_MEMCR 0xFF)))
    by (vm_compute; split; [discriminate | reflexivity]).
  assert (Hc : is_uint8 0x0B) by (unfold is_uint8; lia).
  destruct (mutators_idempotent (with_MEMCR 0xFF) 0x0B Hv Hc)
    as [_ [_ [_ [Hclk _]]]].
  exact (conj Hv (conj Hc (conj eq_refl (Hclk XLR8SPISRAMMEMCR)))).
Defined.

(** C8. From a register holding [0x00], the calls [sequential_mode();
    clock_divider(4); extended_address_enable();] leave [0x19] in it:
    mode bits 5:4 = 01, clock bits 3:1 = 100, extended-address bit 0 = 1. *)
Theorem sequential_div2_extended_gives_0x19 m :
  MEMCR m = 0x00 ->
  MEMCR (extended_address_enable (clock_divider 4 (sequential_mode m)))
    = 0x19 /\
  bits 5 4
    (MEMCR (extended_address_enable (clock_divider 4 (sequential_mode m))))
    = 1 /\
  bits 3 1
    (MEMCR (extended_address_enable (clock_divider 4 (sequential_mode m))))
    = SPI_CLOCK_DIV2 /\
  bit 0
    (MEMCR (extended_address_enable (clock_divider 4 (sequential_mode m))))
    = true.
Proof.
  intros Hm.
  pose proof (MEMCR_sequential_mode m _ Hm) as Hseq.
  pose proof (MEMCR_clock_divider _ _ 4 Hseq) as Hclk.
  assert (Hbyte : is_uint8 (MEMCR (clock_divider 4 (sequential_mode m))))
    by apply MEMCR_clock_divider_range.
  rewrite (MEMCR_extended_address_enable _ _ Hbyte eq_refl), Hclk.
  repeat split.
Qed.

Lemma sequential_div2_extended_gives_0x19_witness :
  MEMCR (with_MEMCR 0x00) = 0x00 /\
  MEMCR (extended_address_enable
           (clock_divider 4 (sequential_mode (with_MEMCR 0x00)))) = 0x19.
Proof.
  assert (Hm : MEMCR (with_MEMCR 0x00) = 0x00) by reflexivity.
  destruct (sequential_div2_extended_gives_0x19 (with_MEMCR 0x00) Hm)
    as [Hr _].
  exact (conj Hm Hr).
Defined.

(** C9. The extended-address bit is independent of mode and clock
    selection: for every prior 8-bit register value [v], the three mode
    setters and [clock_divider c], for every 8-bit code [c], leave bit 0
    as it was (the retain mask [0x31] has bit 0 set and [c << 1] has bit 0
    clear); [extended_address_enable] and [extended_address_disable]
    leave bits 5:1, the mode and clock fields, as they were. *)
Theorem extended_address_bit_independent m v c :
  is_uint8 v -> is_uint8 c -> MEMCR m = v ->
  bit 0 (MEMCR (byte_mode m)) = bit 0 v /\
  bit 0 (MEMCR (page_mode m)) = bit 0 v /\
  bit 0 (MEMCR (sequential_mode m)) = bit 0 v /\
  bit 0 (MEMCR (clock_divider c m)) = bit 0 v /\
  bit 0 0x31 = true /\
  bit 0 (to_uint8 (Z.shiftl c 1)) = false /\
  same_bits 5 1 (MEMCR (extended_address_enable m)) v /\
  same_bits 5 1 (MEMCR (extended_address_disable m)) v.
Proof.
  intros Hv Hc Hm.
  rewrite (MEMCR_byte_mode m v Hm), (MEMCR_page_mode m v Hm),
    (MEMCR_sequential_mode m v Hm), (MEMCR_clock_divider m v c Hm),
    (MEMCR_extended_address_enable m v Hv Hm),
    (MEMCR_extended_address_disable m v Hm).
  refine (conj _ (conj _ (conj _ (conj _ (conj _ (conj _ (conj _ _))))))).
  1-6: unfold bit; autorewrite with byte_bits; decide_bits.
  - same_bits_eq.
  - same_bits_eq.
Qed.

Lemma extended_address_bit_independent_witness :
  is_uint8 0x2B /\ is_uint8 0xFF /\ MEMCR (with_MEMCR 0x2B) = 0x2B /\
  bit 0 (MEMCR (clock_divider 0xFF (with_MEMCR 0x2B))) = true /\
  MEMCR (clock_divider 0xFF (with_MEMCR 0x2B)) = 0xFF.
Proof.
  assert (Hv : is_uint8 0x2B) by (unfold is_uint8; lia).
  assert (Hc : is_uint8 0xFF) by (unfold is_uint8; lia).
  assert (Hm : MEMCR (with_MEMCR 0x2B) = 0x2B) by reflexivity.
  destruct (extended_address_bit_independent (with_MEMCR 0x2B) 0x2B 0xFF
              Hv Hc Hm) as [_ [_ [_ [Hclk _]]]].
  exact (conj Hv (conj Hc (conj Hm (conj Hclk eq_refl)))).
Defined.

(** C10. [extended_address_enable] commutes with each of the other
    mutators: for every prior 8-bit register value and every 8-bit code
    [c], running it before [byte_mode], [page_mode], [sequential_mode] or
    [clock_divider c] leaves the same data space as running it after. *)
Theorem extended_address_enable_commutes m c :
  is_uint8 (MEMCR m) -> is_uint8 c ->
  same_state (byte_mode (extended_address_enable m))
             (extended_address_enable (byte_mode m)) /\
  same_state (page_mode (extended_address_enable m))
             (extended_address_enable (page_mode m)) /\
  same_state (sequential_mode (extended_address_enable m))
             (extended_address_enable (sequential_mode m)) /\
  same_state (clock_divider c (extended_address_enable m))
             (extended_address_enable (clock_divider c m)).
Proof.
  intros Hv Hc.
  refine (conj _ (conj _ (conj _ _))).
  - apply (rmw_swap_same_state
             (fun r => Z.lor r 0x01) (fun r => Z.land r 0x0F)).
    intros v. byte_eq.
  - apply (rmw_swap_same_state
             (fun r => Z.lor r 0x01) (fun r => Z.lor (Z.land r 0x0F) 0x20)).
    intros v. byte_eq.
  - apply (rmw_swap_same_state
             (fun r => Z.lor r 0x01) (fun r => Z.lor (Z.land r 0x0F) 0x10)).
    intros v. byte_eq.
  - apply (rmw_swap_same_state
             (fun r => Z.lor r 0x01)
             (fun r => Z.lor (Z.land r 0x31) (to_uint8 (Z.shiftl c 1)))).
    intros v. byte_eq.
Qed.

Lemma extended_address_enable_commutes_witness :
  is_uint8 (MEMCR (with_MEMCR 0xD4)) /\ is_uint8 0x06 /\
  MEMCR (clock_divider 0x06 (extended_address_enable (with_MEMCR 0xD4))) =
  MEMCR (extended_address_enable (clock_divider 0x06 (with_MEMCR 0xD4))) /\
  MEMCR (extended_address_enable (clock_divider 0x06 (with_MEMCR 0xD4))) =
  0x1D.
Proof.
  assert (Hv : is_uint8 (MEMCR (with_MEMCR 0xD4)))
    by (vm_compute; split; [discriminate | reflexivity]).
  assert (Hc : is_uint8 0x06) by (unfold is_uint8; lia).
  destruct (extended_address_enable_commutes (with_MEMCR 0xD4) 0x06 Hv Hc)
    as [_ [_ [_ Hclk]]].
  exact (conj Hv (conj Hc (conj (Hclk XLR8SPISRAMMEMCR) eq_refl))).
Defined.

(** ** Further runs on concrete registers *)

Example page_div4_disable_from_zero :
  MEMCR (extended_address_disable
           (clock_divider SPI_CLOCK_DIV4 (page_mode (with_MEMCR 0x00))))
  = 0x20.
Proof. reflexivity. Qed.

Example byte_mode_from_0xFF : MEMCR (byte_mode (with_MEMCR 0xFF)) = 0x0F.
Proof. reflexivity. Qed.

Example disable_from_0xFF :
  MEMCR (extended_address_disable (with_MEMCR 0xFF)) = 0x3E.
Proof. reflexivity. Qed.

Example div64_from_0x20 :
  MEMCR (clock_divider SPI_CLOCK_DIV64 (with_MEMCR 0x20)) = 0x24.
Proof. reflexivity. Qed.

Example byte_then_page_from_zero :
  MEMCR (page_mode (byte_mode (with_MEMCR 0x00))) = 0x20.
Proof. reflexivity. Qed.

(** Every code above 7 reaches past the clock field: code 0x7F fills the
    byte from bit 1 up. *)
Example code_0x7F_from_zero :
  MEMCR (clock_divider 0x7F (with_MEMCR 0x00)) = 0xFE.
Proof. reflexivity. Qed.

(** ** Calls as read-modify-write steps *)

Lemma do_call_rmw k m : do_call k m = rmw (update k) m.
Proof. destruct k; reflexivity. Qed.

Lemma MEMCR_do_call k m : MEMCR (do_call k m) = to_uint8 (update k (MEMCR m)).
Proof. rewrite do_call_rmw. unfold rmw. apply MEMCR_store8. Qed.

Lemma code_in_range_divider c :
  code_in_range (Clock_divider c) = true -> 0 <= c <= 7.
Proof.
  cbn [code_in_range]. intros Hc. apply andb_true_iff in Hc.
  destruct Hc as [Hlo Hhi].
  apply Z.leb_le in Hlo. apply Z.leb_le in Hhi. split; assumption.
Qed.

(** Bits already known are put in place before the rest is decided. *)
Ltac known_bits :=
  repeat match goal with
  | H : Z.testbit ?x ?j = _ |- context [Z.testbit ?x ?j] => rewrite H
  end.

(** A statement about a few named bits of the bytes in sight, hypotheses
    included: every combination of the bits is tried. *)
Ltac try_all_bits :=
  eval_index; zero_bits; abstract_bits; vm_compute;
  repeat match goal with b : bool |- _ => destruct b end;
  intros; first [reflexivity | discriminate | congruence].

(** Nothing but the register is ever written: whatever the calls and
    their arguments, every other address of the data space holds after a
    run what it held before. *)
Theorem run_writes_only_MEMCR ks m a :
  a <> XLR8SPISRAMMEMCR -> load8 (run ks m) a = load8 m a.
Proof.
  intros Hne. revert m.
  induction ks as [| k ks IH]; intros m; cbn [run].
  - reflexivity.
  - rewrite IH, do_call_rmw. apply rmw_elsewhere. exact Hne.
Qed.

Lemma run_writes_only_MEMCR_witness :
  0xF1 <> XLR8SPISRAMMEMCR /\
  load8 (run [Page_mode; Clock_divider 0xFF; Extended_address_enable]
             (store8 (with_MEMCR 0xC3) 0xF1 0x5A)) 0xF1 = 0x5A.
Proof.
  assert (Hne : 0xF1 <> XLR8SPISRAMMEMCR) by (vm_compute; discriminate).
  split; [exact Hne |].
  rewrite (run_writes_only_MEMCR
             [Page_mode; Clock_divider 0xFF; Extended_address_enable]
             (store8 (with_MEMCR 0xC3) 0xF1 0x5A) 0xF1 Hne).
  reflexivity.
Defined.

(** The last mode setter wins: after two mode setters in a row the data
    space is what the second alone would have left, whatever the register
    held and whichever two setters they are. *)
Theorem last_mode_setter_wins k1 k2 m :
  is_mode_call k1 = true -> is_mode_call k2 = true ->
  same_state (do_call k2 (do_call k1 m)) (do_call k2 m).
Proof.
  intros H1 H2. rewrite !do_call_rmw.
  apply rmw_twice_same_state. intros v.
  destruct k1; try discriminate H1; destruct k2; try discriminate H2;
    cbn [update]; byte_eq.
Qed.

Lemma last_mode_setter_wins_witness :
  is_mode_call Sequential_mode = true /\ is_mode_call Page_mode = true /\
  MEMCR (page_mode (sequential_mode (with_MEMCR 0xFF))) =
  MEMCR (page_mode (with_MEMCR 0xFF)) /\
  MEMCR (page_mode (with_MEMCR 0xFF)) = 0x2F.
Proof.
  refine (conj eq_refl (conj eq_refl (conj _ eq_refl))).
  exact (last_mode_setter_wins Sequential_mode Page_mode (with_MEMCR 0xFF)
           eq_refl eq_refl XLR8SPISRAMMEMCR).
Defined.

(** A mode setter and [clock_divider] with a code in 0..7 can be called in
    either order.  With code 8 the order shows: [byte_mode] last clears
    the bit the code spilled into the mode field, [byte_mode] first does
    not. *)
Theorem mode_setter_commutes_with_clock_divider k c m :
  is_mode_call k = true -> 0 <= c <= 7 ->
  same_state (do_call k (clock_divider c m)) (clock_divider c (do_call k m)) /\
  MEMCR (byte_mode (clock_divider 8 m)) <>
  MEMCR (clock_divider 8 (byte_mode m)).
Proof.
  intros Hk Hc. split.
  - change (clock_divider c) with (do_call (Clock_divider c)).
    rewrite !do_call_rmw.
    apply rmw_swap_same_state. intros v.
    destruct k; try discriminate Hk; cbn [update]; byte_eq.
  - change (byte_mode (clock_divider 8 m))
      with (do_call Byte_mode (do_call (Clock_divider 8) m)).
    change (clock_divider 8 (byte_mode m))
      with (do_call (Clock_divider 8) (do_call Byte_mode m)).
    rewrite !MEMCR_do_call. cbn [update].
    generalize (MEMCR m) as v; intros v Heq.
    apply (f_equal (fun r => Z.testbit r 4)) in Heq. cbv beta in Heq.
    autorewrite with byte_bits in Heq.
    revert Heq. try_all_bits.
Qed.

Lemma mode_setter_commutes_with_clock_divider_witness :
  is_mode_call Page_mode = true /\ 0 <= 5 <= 7 /\
  MEMCR (page_mode (clock_divider 5 (with_MEMCR 0xFF))) =
  MEMCR (clock_divider 5 (page_mode (with_MEMCR 0xFF))) /\
  MEMCR (clock_divider 5 (page_mode (with_MEMCR 0xFF))) = 0x2B.
Proof.
  assert (Hc : 0 <= 5 <= 7) by lia.
  refine (conj eq_refl (conj Hc (conj _ eq_refl))).
  exact (proj1 (mode_setter_commutes_with_clock_divider Page_mode 5
                  (with_MEMCR 0xFF) eq_refl Hc) XLR8SPISRAMMEMCR).
Defined.

(** A second [clock_divider] replaces the clock field of the first but
    not what the first code spilled into the mode field: bits 3 and 4 of
    the first code stay in bits 5:4.  After a first code in 0..7 the
    second call leaves exactly what it would have left alone. *)
Theorem clock_divider_twice c1 c2 m :
  MEMCR (clock_divider c2 (clock_divider c1 m)) =
    Z.lor (MEMCR (clock_divider c2 m)) (Z.land (Z.shiftl c1 1) 0x30) /\
  (0 <= c1 <= 7 ->
   same_state (clock_divider c2 (clock_divider c1 m)) (clock_divider c2 m)).
Proof.
  split.
  - change (clock_divider c2 (clock_divider c1 m))
      with (do_call (Clock_divider c2) (do_call (Clock_divider c1) m)).
    change (clock_divider c2 m) with (do_call (Clock_divider c2) m).
    rewrite !MEMCR_do_call. cbn [update].
    generalize (MEMCR m) as v; intro v. byte_eq.
  - intros Hc1.
    apply (rmw_twice_same_state (update (Clock_divider c1))
             (update (Clock_divider c2)) (update (Clock_divider c2))).
    intros v. cbn [update]. byte_eq.
Qed.

Lemma clock_divider_twice_witness :
  0 <= 3 <= 7 /\
  MEMCR (clock_divider 4 (clock_divider 3 (with_MEMCR 0x20))) =
  MEMCR (clock_divider 4 (with_MEMCR 0x20)) /\
  MEMCR (clock_divider 4 (clock_divider 0x18 (with_MEMCR 0x00))) = 0x38.
Proof.
  assert (Hc : 0 <= 3 <= 7) by lia.
  refine (conj Hc (conj _ eq_refl)).
  exact (proj2 (clock_divider_twice 3 4 (with_MEMCR 0x20)) Hc
           XLR8SPISRAMMEMCR).
Defined.

(** [extended_address_disable] after [extended_address_enable] is
    [extended_address_disable] alone.  The other way round the register
    ends as [(v & 0x3E) | 0x01], which is what [extended_address_enable]
    alone stores exactly when bits 7:6 of [v] are zero: the disable in
    front has cleared them. *)
Theorem extended_address_enable_disable m v :
  MEMCR m = v ->
  same_state (extended_address_disable (extended_address_enable m))
             (extended_address_disable m) /\
  MEMCR (extended_address_enable (extended_address_disable m)) =
    Z.lor (Z.land v 0x3E) 0x01 /\
  (MEMCR (extended_address_enable (extended_address_disable m)) =
   MEMCR (extended_address_enable m) <-> bits 7 6 v = 0).
Proof.
  intros Hm.
  assert (Hed : MEMCR (extended_address_enable (extended_address_disable m))
                = Z.lor (Z.land v 0x3E) 0x01).
  { change (extended_address_enable (extended_address_disable m))
      with (do_call Extended_address_enable
              (do_call Extended_address_disable m)).
    rewrite !MEMCR_do_call, Hm. cbn [update]. byte_eq. }
  assert (He : MEMCR (extended_address_enable m) = to_uint8 (Z.lor v 0x01)).
  { change (extended_address_enable m)
      with (do_call Extended_address_enable m).
    rewrite MEMCR_do_call, Hm. reflexivity. }
  refine (conj _ (conj Hed _)).
  - apply (rmw_twice_same_state (update Extended_address_enable)
             (update Extended_address_disable)
             (update Extended_address_disable)).
    intros r. cbn [update]. byte_eq.
  - rewrite Hed, He. unfold bits. split.
    + intros Heq.
      assert (H6 : Z.testbit v 6 = false).
      { apply (f_equal (fun r => Z.testbit r 6)) in Heq. cbv beta in Heq.
        autorewrite with byte_bits in Heq. revert Heq. try_all_bits. }
      assert (H7 : Z.testbit v 7 = false).
      { apply (f_equal (fun r => Z.testbit r 7)) in Heq. cbv beta in Heq.
        autorewrite with byte_bits in Heq. revert Heq. try_all_bits. }
      apply Z.bits_inj'; intros i Hi. autorewrite with byte_bits.
      destruct (byte_index i Hi)
        as [-> | [-> | [-> | [-> | [-> | [-> | [-> | [-> | Hhigh]]]]]]]];
        [eval_index; known_bits; decide_bits .. | high_bits i].
    + intros Hz.
      assert (H6 : Z.testbit v 6 = false).
      { apply (f_equal (fun r => Z.testbit r 0)) in Hz. cbv beta in Hz.
        autorewrite with byte_bits in Hz. revert Hz. try_all_bits. }
      assert (H7 : Z.testbit v 7 = false).
      { apply (f_equal (fun r => Z.testbit r 1)) in Hz. cbv beta in Hz.
        autorewrite with byte_bits in Hz. revert Hz. try_all_bits. }
      apply Z.bits_inj'; intros i Hi. autorewrite with byte_bits.
      destruct (byte_index i Hi)
        as [-> | [-> | [-> | [-> | [-> | [-> | [-> | [-> | Hhigh]]]]]]]];
        [eval_index; known_bits; decide_bits .. | high_bits i].
Qed.

Lemma extended_address_enable_disable_witness :
  MEMCR (with_MEMCR 0xC2) = 0xC2 /\
  MEMCR (extended_address_enable
           (extended_address_disable (with_MEMCR 0xC2))) = 0x03 /\
  MEMCR (extended_address_enable (with_MEMCR 0xC2)) = 0xC3.
Proof.
  assert (Hm : MEMCR (with_MEMCR 0xC2) = 0xC2) by reflexivity.
  destruct (extended_address_enable_disable (with_MEMCR 0xC2) 0xC2 Hm)
    as [_ [Hed _]].
  exact (conj Hm (conj Hed eq_refl)).
Defined.

(** [extended_address_disable] can be called before or after a mode
    setter, and before or after [clock_divider] with a code in 0..7.
    A code with bit 5 set shows the order: the disable mask [0x3E] clears
    the bit 6 such a code sets only when it comes last. *)
Theorem extended_address_disable_commutes k m :
  negb (is_extended_address_call k) = true -> code_in_range k = true ->
  same_state (do_call k (extended_address_disable m))
             (extended_address_disable (do_call k m)) /\
  MEMCR (clock_divider 0x20 (extended_address_disable m)) <>
  MEMCR (extended_address_disable (clock_divider 0x20 m)).
Proof.
  intros Hk Hc. split.
  - change extended_address_disable with (do_call Extended_address_disable).
    rewrite !do_call_rmw.
    apply (rmw_swap_same_state (update Extended_address_disable) (update k)).
    intros v.
    destruct k; try discriminate Hk; cbn [update]; try byte_eq.
    apply code_in_range_divider in Hc. byte_eq.
  - change (clock_divider 0x20 (extended_address_disable m))
      with (do_call (Clock_divider 0x20)
              (do_call Extended_address_disable m)).
    change (extended_address_disable (clock_divider 0x20 m))
      with (do_call Extended_address_disable
              (do_call (Clock_divider 0x20) m)).
    rewrite !MEMCR_do_call. cbn [update].
    generalize (MEMCR m) as v; intros v Heq.
    apply (f_equal (fun r => Z.testbit r 6)) in Heq. cbv beta in Heq.
    autorewrite with byte_bits in Heq.
    revert Heq. try_all_bits.
Qed.

Lemma extended_address_disable_commutes_witness :
  negb (is_extended_address_call (Clock_divider 6)) = true /\
  code_in_range (Clock_divider 6) = true /\
  MEMCR (clock_divider 6 (extended_address_disable (with_MEMCR 0xFF))) =
  MEMCR (extended_address_disable (clock_divider 6 (with_MEMCR 0xFF))) /\
  MEMCR (extended_address_disable (clock_divider 6 (with_MEMCR 0xFF))) =
  0x3C.
Proof.
  refine (conj eq_refl (conj eq_refl (conj _ eq_refl))).
  exact (proj1 (extended_address_disable_commutes (Clock_divider 6)
                  (with_MEMCR 0xFF) eq_refl eq_refl) XLR8SPISRAMMEMCR).
Defined.

(** ** What a run of calls keeps *)

Lemma do_call_keeps_reserved_clear k m :
  code_in_range k = true ->
  reserved_clear (MEMCR m) = true ->
  reserved_clear (MEMCR (do_call k m)) = true.
Proof.
  intros Hc. rewrite MEMCR_do_call.
  generalize (MEMCR m) as v; intro v.
  unfold reserved_clear, bit.
  destruct k; cbn [update]; autorewrite with byte_bits;
    try (apply code_in_range_divider in Hc); try_all_bits.
Qed.

Lemma do_call_keeps_legal_mode k m :
  code_in_range k = true ->
  legal_mode (MEMCR m) = true ->
  legal_mode (MEMCR (do_call k m)) = true.
Proof.
  intros Hc. rewrite MEMCR_do_call.
  generalize (MEMCR m) as v; intro v.
  unfold legal_mode, bit.
  destruct k; cbn [update]; autorewrite with byte_bits;
    try (apply code_in_range_divider in Hc); try_all_bits.
Qed.

(** As long as every divider code passed is in 0..7, no sequence of calls
    sets a reserved bit 7:6 that was clear, and none brings the mode field
    5:4 to the reserved encoding 11 from a register that did not have it. *)
Theorem run_keeps_reserved_clear_and_legal_mode ks m :
  forallb code_in_range ks = true ->
  reserved_clear (MEMCR m) = true -> legal_mode (MEMCR m) = true ->
  reserved_clear (MEMCR (run ks m)) = true /\
  legal_mode (MEMCR (run ks m)) = true.
Proof.
  revert m.
  induction ks as [| k ks IH]; intros m Hks Hres Hmode; cbn [run].
  - split; assumption.
  - cbn [forallb] in Hks. apply andb_true_iff in Hks.
    destruct Hks as [Hk Hks].
    apply IH.
    + exact Hks.
    + apply do_call_keeps_reserved_clear; assumption.
    + apply do_call_keeps_legal_mode; assumption.
Qed.

Lemma run_keeps_reserved_clear_and_legal_mode_witness :
  forallb code_in_range
    [Clock_divider 7; Extended_address_enable; Sequential_mode;
     Clock_divider 0; Extended_address_disable] = true /\
  reserved_clear (MEMCR (with_MEMCR 0x2F)) = true /\
  legal_mode (MEMCR (with_MEMCR 0x2F)) = true /\
  reserved_clear
    (MEMCR (run [Clock_divider 7; Extended_address_enable; Sequential_mode;
                 Clock_divider 0; Extended_address_disable]
                (with_MEMCR 0x2F))) = true /\
  legal_mode
    (MEMCR (run [Clock_divider 7; Extended_address_enable; Sequential_mode;
                 Clock_divider 0; Extended_address_disable]
                (with_MEMCR 0x2F))) = true.
Proof.
  refine (conj eq_refl (conj eq_refl (conj eq_refl _))).
  exact (run_keeps_reserved_clear_and_legal_mode
           [Clock_divider 7; Extended_address_enable; Sequential_mode;
            Clock_divider 0; Extended_address_disable]
           (with_MEMCR 0x2F) eq_refl eq_refl eq_refl).
Defined.

(** ** A full configuration *)

Lemma MEMCR_run_3 k1 k2 k3 m :
  MEMCR (run [k1; k2; k3] m) =
  to_uint8 (update k3 (to_uint8 (update k2 (to_uint8 (update k1 (MEMCR m)))))).
Proof. cbn [run]. rewrite !MEMCR_do_call. reflexivity. Qed.

(** The six orders of three things. *)
Lemma Permutation_of_three (A : Type) (a b c : A) (l : list A) :
  Permutation l [a; b; c] ->
  l = [a; b; c] \/ l = [a; c; b] \/ l = [b; a; c] \/
  l = [b; c; a] \/ l = [c; a; b] \/ l = [c; b; a].
Proof.
  intros Hp.
  destruct l as [| x l].
  - apply Permutation_nil in Hp. discriminate Hp.
  - assert (Hx : In x [a; b; c])
      by (apply (Permutation_in x Hp); left; reflexivity).
    destruct Hx as [<- | [<- | [<- | []]]].
    + apply Permutation_cons_inv in Hp.
      apply Permutation_sym, Permutation_length_2_inv in Hp. destruct Hp as [-> | ->]; auto.
    + assert (Hp' : Permutation (b :: l) (b :: [a; c]))
        by (etransitivity; [exact Hp | apply perm_swap]).
      apply Permutation_cons_inv in Hp'.
      apply Permutation_sym, Permutation_length_2_inv in Hp'.
      destruct Hp' as [-> | ->]; auto.
    + assert (Hp' : Permutation (c :: l) (c :: [a; b])).
      { etransitivity; [exact Hp |].
        etransitivity; [apply perm_skip, perm_swap | apply perm_swap]. }
      apply Permutation_cons_inv in Hp'.
      apply Permutation_sym, Permutation_length_2_inv in Hp'.
      destruct Hp' as [-> | ->]; auto 6.
Qed.

(** One mode setter, one [clock_divider] with a code [c] in 0..7 and one
    extended-address call, made in any order from any register contents,
    leave the register fully determined: mode bits, [c << 1], extended-
    address bit, and zero in bits 7:6. *)
Theorem full_configuration_in_any_order kmode c kext ks m :
  is_mode_call kmode = true -> 0 <= c <= 7 ->
  is_extended_address_call kext = true ->
  Permutation ks [kmode; Clock_divider c; kext] ->
  MEMCR (run ks m) =
  Z.lor (Z.lor (mode_field kmode) (Z.shiftl c 1))
        (extended_address_field kext).
Proof.
  intros Hmode Hc Hext Hp.
  apply Permutation_of_three in Hp.
  destruct Hp as [-> | [-> | [-> | [-> | [-> | ->]]]]];
    rewrite MEMCR_run_3; generalize (MEMCR m) as v; intro v;
    destruct kmode; try discriminate Hmode;
    destruct kext; try discriminate Hext;
    cbn [update mode_field extended_address_field]; byte_eq.
Qed.

Lemma full_configuration_in_any_order_witness :
  is_mode_call Sequential_mode = true /\ 0 <= 4 <= 7 /\
  is_extended_address_call Extended_address_enable = true /\
  Permutation [Extended_address_enable; Clock_divider 4; Sequential_mode]
              [Sequential_mode; Clock_divider 4; Extended_address_enable] /\
  MEMCR (run [Extended_address_enable; Clock_divider 4; Sequential_mode]
             (with_MEMCR 0xE6)) = 0x19.
Proof.
  assert (Hc : 0 <= 4 <= 7) by lia.
  assert (Hp : Permutation
                 [Extended_address_enable; Clock_divider 4; Sequential_mode]
                 [Sequential_mode; Clock_divider 4; Extended_address_enable]).
  { apply (perm_trans (perm_swap _ _ _)).
    apply (perm_trans (perm_skip _ (perm_swap _ _ _))).
    apply perm_swap. }
  refine (conj eq_refl (conj Hc (conj eq_refl (conj Hp _)))).
  exact (full_configuration_in_any_order Sequential_mode 4
           Extended_address_enable _ (with_MEMCR 0xE6)
           eq_refl Hc eq_refl Hp).
Defined.

(** ** Reading the divider code back *)

Lemma clock_field_read_back c m :
  0 <= c <= 7 -> bits 3 1 (MEMCR (clock_divider c m)) = c.
Proof.
  intros Hc. rewrite (MEMCR_clock_divider m (MEMCR m) c eq_refl).
  generalize (MEMCR m) as v; intro v. unfold bits. byte_eq.
Qed.

Lemma clock_divider_keeps_mode_field c m :
  0 <= c <= 7 ->
  bits 5 4 (MEMCR (clock_divider c m)) = bits 5 4 (MEMCR m).
Proof.
  intros Hc. rewrite (MEMCR_clock_divider m (MEMCR m) c eq_refl).
  generalize (MEMCR m) as v; intro v. unfold bits. byte_eq.
Qed.

Lemma spi_clock_codes_range c : In c spi_clock_codes -> 0 <= c <= 6.
Proof.
  unfold spi_clock_codes. cbn [In].
  intros [<- | [<- | [<- | [<- | [<- | [<- | [<- | []]]]]]]];
    vm_compute; split; discriminate.
Qed.

(** A code in 0..7 can be read back from the register whatever the
    register held before: two [clock_divider] calls that leave the same
    byte, even from different prior contents, were given the same code. *)
Theorem clock_divider_code_determined c1 c2 m1 m2 :
  0 <= c1 <= 7 -> 0 <= c2 <= 7 ->
  MEMCR (clock_divider c1 m1) = MEMCR (clock_divider c2 m2) -> c1 = c2.
Proof.
  intros H1 H2 Heq.
  rewrite <- (clock_field_read_back c1 m1 H1).
  rewrite <- (clock_field_read_back c2 m2 H2).
  rewrite Heq. reflexivity.
Qed.

Lemma clock_divider_code_determined_witness :
  0 <= 2 <= 7 /\
  MEMCR (clock_divider 2 (with_MEMCR 0xE4)) =
  MEMCR (clock_divider 2 (with_MEMCR 0x20)) /\
  2 = 2.
Proof.
  assert (Hc : 0 <= 2 <= 7) by lia.
  assert (Heq : MEMCR (clock_divider 2 (with_MEMCR 0xE4)) =
                MEMCR (clock_divider 2 (with_MEMCR 0x20))) by reflexivity.
  exact (conj Hc (conj Heq
           (clock_divider_code_determined 2 2 (with_MEMCR 0xE4)
              (with_MEMCR 0x20) Hc Hc Heq))).
Defined.

(** The seven named codes are seven different codes, all in 0..6.  So
    [clock_divider] with a named code leaves the mode field as it was and
    the code in bits 3:1, and two different names never leave the same
    register. *)
Theorem named_clock_codes_are_safe_and_distinct c1 c2 m1 m2 :
  In c1 spi_clock_codes -> In c2 spi_clock_codes ->
  NoDup spi_clock_codes /\
  bits 5 4 (MEMCR (clock_divider c1 m1)) = bits 5 4 (MEMCR m1) /\
  bits 3 1 (MEMCR (clock_divider c1 m1)) = c1 /\
  (c1 <> c2 ->
   MEMCR (clock_divider c1 m1) <> MEMCR (clock_divider c2 m2)).
Proof.
  intros H1 H2.
  apply spi_clock_codes_range in H1. apply spi_clock_codes_range in H2.
  assert (R1 : 0 <= c1 <= 7) by lia.
  assert (R2 : 0 <= c2 <= 7) by lia.
  refine (conj _ (conj _ (conj _ _))).
  - unfold spi_clock_codes.
    repeat (constructor; [cbn [In]; vm_compute; intuition discriminate |]).
    constructor.
  - apply clock_divider_keeps_mode_field. exact R1.
  - apply clock_field_read_back. exact R1.
  - intros Hne Heq. apply Hne.
    rewrite <- (clock_field_read_back c1 m1 R1).
    rewrite <- (clock_field_read_back c2 m2 R2).
    rewrite Heq. reflexivity.
Qed.

Lemma named_clock_codes_are_safe_and_distinct_witness :
  In SPI_CLOCK_DIV2 spi_clock_codes /\ In SPI_CLOCK_DIV128 spi_clock_codes /\
  bits 5 4 (MEMCR (clock_divider SPI_CLOCK_DIV2 (with_MEMCR 0x2F))) = 2 /\
  bits 3 1 (MEMCR (clock_divider SPI_CLOCK_DIV2 (with_MEMCR 0x2F))) = 4 /\
  MEMCR (clock_divider SPI_CLOCK_DIV2 (with_MEMCR 0x2F)) <>
  MEMCR (clock_divider SPI_CLOCK_DIV128 (with_MEMCR 0x2F)).
Proof.
  assert (H1 : In SPI_CLOCK_DIV2 spi_clock_codes)
    by (do 4 right; left; reflexivity).
  assert (H2 : In SPI_CLOCK_DIV128 spi_clock_codes)
    by (do 3 right; left; reflexivity).
  destruct (named_clock_codes_are_safe_and_distinct
              SPI_CLOCK_DIV2 SPI_CLOCK_DIV128
              (with_MEMCR 0x2F) (with_MEMCR 0x2F) H1 H2)
    as [_ [Hmode [Hclk Hdiff]]].
  assert (Hne : SPI_CLOCK_DIV2 <> SPI_CLOCK_DIV128)
    by (vm_compute; discriminate).
  exact (conj H1 (conj H2 (conj Hmode (conj Hclk (Hdiff Hne))))).
Defined.

(** Without the bound on the code the mode field is not safe: code 0x18
    on a cleared register selects the reserved mode 11. *)
Example code_0x18_reaches_reserved_mode :
  MEMCR (clock_divider 0x18 (with_MEMCR 0x00)) = 0x30 /\
  legal_mode (MEMCR (clock_divider 0x18 (with_MEMCR 0x00))) = false.
Proof. split; reflexivity. Qed.
